(** * netmiko/linux/linux_ssh.py: the Linux driver, embedded and verified

    The module defines two classes.  [LinuxSSH] drives an interactive shell:
    it decides from the prompt whether the session is root, becomes root
    ([enable]) and leaves root again ([exit_enable_mode]).
    [LinuxFileTransfer] checks a copied file with [md5sum].

    Both classes inherit from classes whose code lives in other modules
    (the channel, the prompt discovery, the generic command loop).  Those
    inherited helpers are gathered in the class [Parent] below; the remote
    end of the channel is an arbitrary function of the calls made so far. *)

From Stdlib Require Import String Ascii List ZArith QArith Bool Arith Lia.
Import ListNotations.
Local Close Scope Q_scope.
Local Open Scope nat_scope.
Local Open Scope string_scope.

(** ** Python strings

    A Python [str] is modelled by [string]; its characters are the code
    points below 256. *)

Module PyStr.

(** [str.isspace] on one character: tab, line feed, vertical tab, form
    feed, carriage return, the four separators 0x1c-0x1f, space, NEL and
    the no-break space. *)
Definition isspace (c : ascii) : bool :=
  let n := nat_of_ascii c in
  (((9 <=? n) && (n <=? 13)) || ((28 <=? n) && (n <=? 32))
   || (n =? 133) || (n =? 160))%nat.

Definition nonspace (c : ascii) : bool := negb (isspace c).

Definition lower (c : ascii) : ascii :=
  let n := nat_of_ascii c in
  if ((65 <=? n) && (n <=? 90))%nat then ascii_of_nat (n + 32) else c.

Fixpoint take (k : nat) (s : string) : string :=
  match k, s with
  | S k', String c r => String c (take k' r)
  | _, _ => EmptyString
  end.

Fixpoint drop (k : nat) (s : string) : string :=
  match k, s with
  | S k', String _ r => drop k' r
  | _, _ => s
  end.

(** Length of the longest prefix whose characters all satisfy [p]. *)
Fixpoint span (p : ascii -> bool) (s : string) : nat :=
  match s with
  | String c r => if p c then S (span p r) else 0
  | EmptyString => 0
  end.

Fixpoint all (p : ascii -> bool) (s : string) : bool :=
  match s with
  | String c r => p c && all p r
  | EmptyString => true
  end.

Fixpoint rev_acc (s acc : string) : string :=
  match s with
  | String c r => rev_acc r (String c acc)
  | EmptyString => acc
  end.

Definition rev (s : string) : string := rev_acc s EmptyString.

Definition lstrip (s : string) : string := drop (span isspace s) s.
Definition rstrip (s : string) : string := rev (lstrip (rev s)).

(** [s.strip()] *)
Definition strip (s : string) : string := rstrip (lstrip s).

(** [s.endswith(suffix)] *)
Definition endswith (s suffix : string) : bool :=
  let n := String.length s in
  let m := String.length suffix in
  (m <=? n)%nat && String.eqb (drop (n - m) s) suffix.

(** What an f-string prints for an [Optional[str]]. *)
Definition format_opt (o : option string) : string :=
  match o with
  | Some s => s
  | None => "None"
  end.

End PyStr.

(** ** The fragment of [re] the driver uses

    The two patterns of the module are ["ssword"] and [^(\S+)\s+].  A
    pattern is kept in parsed form: an optional [^] followed by atoms, each
    atom a character class, taken once or greedily one-or-more times, and
    possibly enclosed in a capturing group. *)

Module Re.

Inductive cclass : Type :=
| Lit (c : ascii)      (* the character itself *)
| Space                (* \s *)
| NonSpace.            (* \S *)

Inductive quant : Type :=
| Once
| Many.                (* + , greedy *)

Record atom : Type := { cls : cclass; rep : quant; grp : bool }.

Record regex : Type := { bol : bool; atoms : list atom }.

(** [re.IGNORECASE] is the flag of value 2. *)
Definition IGNORECASE : Z := 2.

Definition accepts (ic : bool) (k : cclass) (x : ascii) : bool :=
  match k with
  | Lit c => if ic then Ascii.eqb (PyStr.lower c) (PyStr.lower x)
             else Ascii.eqb c x
  | Space => PyStr.isspace x
  | NonSpace => negb (PyStr.isspace x)
  end.

(** A repeated atom first takes as many characters as it can and gives
    them back one at a time: try to continue after [k] characters, then
    after [k - 1], down to one. *)
Fixpoint back (continue : string -> option (list string)) (keep : bool)
    (s : string) (k : nat) : option (list string) :=
  match k with
  | O => None
  | S k' =>
      match continue (PyStr.drop k s) with
      | Some gs => Some (if keep then PyStr.take k s :: gs else gs)
      | None => back continue keep s k'
      end
  end.

(** Match the atoms at the start of [s].  The result is the list of
    captured groups. *)
Fixpoint match_here (ic : bool) (l : list atom) (s : string)
  : option (list string) :=
  match l with
  | [] => Some []
  | a :: l' =>
      let n := PyStr.span (accepts ic (cls a)) s in
      back (match_here ic l') (grp a) s
        match rep a with
        | Once => Nat.min 1 n
        | Many => n
        end
  end.

Fixpoint search_from (ic : bool) (l : list atom) (s : string)
  : option (list string) :=
  match match_here ic l s with
  | Some gs => Some gs
  | None =>
      match s with
      | String _ r => search_from ic l r
      | EmptyString => None
      end
  end.

(** [re.search(pattern, s, flags)]: [None] or the groups of the first
    match. *)
Definition search (pattern : regex) (s : string) (flags : Z)
  : option (list string) :=
  let ic := Z.testbit flags 1 in
  if bol pattern then match_here ic (atoms pattern) s
  else search_from ic (atoms pattern) s.

Fixpoint literal_atoms (s : string) : list atom :=
  match s with
  | String c r => {| cls := Lit c; rep := Once; grp := false |}
                  :: literal_atoms r
  | EmptyString => []
  end.

(** A pattern without metacharacters, such as ["ssword"]. *)
Definition literal (s : string) : regex :=
  {| bol := false; atoms := literal_atoms s |}.

(** [r"^(\S+)\s+"] *)
Definition md5_pattern : regex :=
  {| bol := true;
     atoms := [ {| cls := NonSpace; rep := Many; grp := true |};
                {| cls := Space; rep := Many; grp := false |} ] |}.

End Re.

(** ** Exceptions, the channel trace and the session *)

Inductive exn : Type :=
| SocketTimeout                           (* socket.timeout *)
| NetmikoTimeoutException (msg : string)
| ValueError (msg : string)
| NotImplementedError
| OtherError (name : string).             (* anything else a helper raises *)

Inductive result (A : Type) : Type :=
| Ok (a : A)
| Raise (e : exn).

Arguments Ok {A} a.
Arguments Raise {A} e.

(** One entry per call the driver makes on the channel. *)
Inductive event : Type :=
| Write (data : string)                   (* write_channel(data) *)
| Sleep (seconds : Q)                     (* time.sleep(seconds) *)
| Read                                    (* read_channel() *)
| Refresh (pri alt : string) (delay_factor : Q) (pattern : option string)
                                          (* the inherited set_base_prompt *)
| SendCommand (cmd : string) (read_timeout : Z).
                                          (* _send_command_str(cmd, read_timeout) *)

Record Session : Type := {
  username : string;
  secret : string;
  base_prompt : string;
  trace : list event
}.

Definition with_trace (s : Session) (t : list event) : Session :=
  {| username := username s; secret := secret s;
     base_prompt := base_prompt s; trace := t |}.

Definition with_base_prompt (s : Session) (p : string) : Session :=
  {| username := username s; secret := secret s;
     base_prompt := p; trace := trace s |}.

(** A method of the driver: it runs on a session, returns or raises, and
    leaves the session behind. *)
Definition M (A : Type) : Type := Session -> result A * Session.

Definition ret {A} (a : A) : M A := fun s => (Ok a, s).

Definition raise {A} (e : exn) : M A := fun s => (Raise e, s).

Definition bind {A B} (m : M A) (k : A -> M B) : M B :=
  fun s =>
    match m s with
    | (Ok a, s') => k a s'
    | (Raise e, s') => (Raise e, s')
    end.

(** [try: body / except <caught>: handler] *)
Definition try_except {A} (body : M A) (caught : exn -> bool)
    (handler : M A) : M A :=
  fun s =>
    match body s with
    | (Ok a, s') => (Ok a, s')
    | (Raise e, s') => if caught e then handler s' else (Raise e, s')
    end.

Definition get_session : M Session := fun s => (Ok s, s).

Definition log (e : event) : M unit :=
  fun s => (Ok tt, with_trace s (trace s ++ [e])).

(** [self.base_prompt = prompt] *)
Definition store_base_prompt (prompt : string) : M unit :=
  fun s => (Ok tt, with_base_prompt s prompt).

Declare Scope py_scope.
Delimit Scope py_scope with py.
Notation "x <- c ;; k" := (bind c (fun x => k))
  (at level 61, c at next level, right associativity) : py_scope.
Notation "c ;; k" := (bind c (fun _ => k))
  (at level 61, right associativity) : py_scope.
Local Open Scope py_scope.

Definition is_socket_timeout (e : exn) : bool :=
  match e with
  | SocketTimeout => true
  | _ => false
  end.

(** Keyword arguments handed through to an inherited method. *)
Definition Kwargs : Type := list (string * string).

(** The prompt terminators, read from the environment when the module is
    imported. *)
Class Environ : Type := {
  LINUX_PROMPT_PRI : string;
  LINUX_PROMPT_ALT : string;
  LINUX_PROMPT_ROOT : string
}.

(** [os.getenv] with nothing set. *)
Definition default_environ : Environ :=
  {| LINUX_PROMPT_PRI := "$"; LINUX_PROMPT_ALT := "#";
     LINUX_PROMPT_ROOT := "#" |}.

(** What the driver inherits and what the remote end answers.  The three
    replies depend on everything done on the channel so far, the current
    call included. *)
Class Parent : Type := {
  normalize_cmd : string -> string;
  delay_factor_of : Session -> Q -> Q;
  read_reply : list event -> result string;
  prompt_reply : list event -> result string;
  command_reply : list event -> result string;
  run_lines : option (list string) -> Kwargs -> M string
}.

(** ** Inherited helpers *)

Section Inherited.

Context {env : Environ} {parent : Parent}.

(** Modelled from the spec: the channel's write capability
    ([write_channel] of the base connection, not in this module).  The
    call is recorded. *)
Definition write_channel (data : string) : M unit := log (Write data).

(** [time.sleep]; the call is recorded, with the delay as a rational. *)
Definition sleep (seconds : Q) : M unit := log (Sleep seconds).

(** Modelled from the spec: the channel's read capability ([read_channel]
    of the base connection).  It returns what is available or signals a
    timeout. *)
Definition read_channel : M string :=
  log Read ;;
  s <- get_session ;;
  match read_reply (trace s) with
  | Ok data => ret data
  | Raise e => raise e
  end.

(** Modelled from the spec: [select_delay_factor] of the base connection,
    the response-delay scale factor of the session. *)
Definition select_delay_factor (delay_factor : Q) : M Q :=
  s <- get_session ;;
  ret (delay_factor_of s delay_factor).

(** Modelled from the spec: refreshBasePrompt, the [set_base_prompt] of
    the base connection.  It reads until a prompt line is found, stores
    the trimmed prompt as the new base prompt and returns it. *)
Definition parent_set_base_prompt (pri_prompt_terminator
    alt_prompt_terminator : string) (delay_factor : Q)
    (pattern : option string) : M string :=
  log (Refresh pri_prompt_terminator alt_prompt_terminator delay_factor
         pattern) ;;
  s <- get_session ;;
  match prompt_reply (trace s) with
  | Ok line =>
      let prompt := PyStr.strip line in
      store_base_prompt prompt ;;
      ret prompt
  | Raise e => raise e
  end.

(** Modelled from the spec: isElevated, the [check_enable_mode] of the
    base connection.  True iff the last-known base prompt ends with
    [check_string]; a read of cached state, without channel I/O. *)
Definition parent_check_enable_mode (check_string : string) : M bool :=
  s <- get_session ;;
  ret (PyStr.endswith (base_prompt s) check_string).

(** Modelled from the spec: [_send_command_str] of the control channel;
    sends the command and returns the raw output read within
    [read_timeout]. *)
Definition send_command_str (cmd : string) (read_timeout : Z) : M string :=
  log (SendCommand cmd read_timeout) ;;
  s <- get_session ;;
  match command_reply (trace s) with
  | Ok raw => ret raw
  | Raise e => raise e
  end.

(** Modelled from the spec: parseChecksum of the base file transfer
    ([process_md5] of the parent class): the token the pattern captures.
    The spec leaves the outcome without a match open; it is an error
    here. *)
Definition parent_process_md5 (md5_output : string) (pattern : Re.regex)
  : result string :=
  match Re.search pattern md5_output 0 with
  | Some (g :: _) => Ok g
  | _ => Raise (ValueError ("Invalid output from MD5 command: "
                            ++ md5_output))
  end.

End Inherited.

(** ** class LinuxSSH *)

Section LinuxSSH.

Context {env : Environ} {parent : Parent}.

Definition set_base_prompt (pri_prompt_terminator alt_prompt_terminator
    : string) (delay_factor : Q) (pattern : option string) : M string :=
  parent_set_base_prompt pri_prompt_terminator alt_prompt_terminator
    delay_factor pattern.

(** [self.set_base_prompt()] with the defaults of its signature. *)
Definition set_base_prompt_default : M string :=
  set_base_prompt LINUX_PROMPT_PRI LINUX_PROMPT_ALT 1%Q None.

Definition check_enable_mode (check_string : string) : M bool :=
  parent_check_enable_mode check_string.

Definition check_config_mode (check_string : string) (pattern : string)
  : M bool :=
  check_enable_mode check_string.

Definition exit_enable_mode (exit_command : string) : M string :=
  delay_factor <- select_delay_factor 0%Q ;;
  let output := "" in
  in_enable <- check_enable_mode LINUX_PROMPT_ROOT ;;
  if in_enable then
    write_channel (normalize_cmd exit_command) ;;
    sleep ((3 # 10) * delay_factor)%Q ;;
    set_base_prompt_default ;;
    still_enable <- check_enable_mode LINUX_PROMPT_ROOT ;;
    if still_enable then raise (ValueError "Failed to exit enable mode.")
    else ret output
  else ret output.

Definition enable_failure_msg : string :=
  "Failed to enter enable mode. Please ensure you pass "
  ++ "the 'secret' argument to ConnectHandler.".

Definition enable (cmd : string) (pattern : Re.regex)
    (enable_pattern : option string) (re_flags : Z) : M string :=
  delay_factor <- select_delay_factor 0%Q ;;
  let output := "" in
  in_enable <- check_enable_mode LINUX_PROMPT_ROOT ;;
  if negb in_enable then
    write_channel (normalize_cmd cmd) ;;
    sleep ((3 # 10) * delay_factor)%Q ;;
    output <- try_except
      (data <- read_channel ;;
       let output := output ++ data in
       match Re.search pattern output re_flags with
       | Some _ =>
           s <- get_session ;; write_channel (normalize_cmd (secret s))
       | None => ret tt
       end ;;
       set_base_prompt_default ;;
       ret output)
      is_socket_timeout
      (raise (NetmikoTimeoutException
                "Timed-out reading channel, data not available.")) ;;
    now_enable <- check_enable_mode LINUX_PROMPT_ROOT ;;
    if negb now_enable then raise (ValueError enable_failure_msg)
    else ret output
  else ret output.

Definition config_mode (config_command : string) (pattern : Re.regex)
    (re_flags : Z) : M string :=
  enable config_command pattern None re_flags.

Definition exit_config_mode (exit_config : string) (pattern : string)
  : M string :=
  exit_enable_mode exit_config.

Definition save_config (args : list string) (kwargs : Kwargs) : M string :=
  raise NotImplementedError.

(** Modelled from the spec: the generic execution collaborator, the
    [send_config_set] of the base connection.  It executes the lines and,
    when [exit_config_mode] is set, leaves command mode afterwards. *)
Definition parent_send_config_set (config_commands : option (list string))
    (exit_config_mode_flag : bool) (kwargs : Kwargs) : M string :=
  output <- run_lines config_commands kwargs ;;
  if exit_config_mode_flag then
    out <- exit_config_mode "exit" "" ;;
    ret (output ++ out)
  else ret output.

Definition send_config_set (config_commands : option (list string))
    (exit_config_mode_flag : bool) (kwargs : Kwargs) : M string :=
  s <- get_session ;;
  let exit_config_mode_flag :=
    if String.eqb (username s) "root" then false
    else exit_config_mode_flag in
  parent_send_config_set config_commands exit_config_mode_flag kwargs.

(** The state Privileged of the session: the cached base prompt ends in
    the root terminator, which is what [check_enable_mode()] answers. *)
Definition privileged (s : Session) : bool :=
  PyStr.endswith (base_prompt s) LINUX_PROMPT_ROOT.

(** The session after a prompt refresh that found [line], with [t] the
    calls made up to then. *)
Definition refreshed (s : Session) (t : list event) (line : string)
  : Session :=
  with_base_prompt (with_trace s t) (PyStr.strip line).

(** The calls [enable] makes before it reads the channel. *)
Definition enable_prefix (cmd : string) (s : Session) : list event :=
  trace s ++ [Write (normalize_cmd cmd);
              Sleep ((3 # 10) * delay_factor_of s 0)%Q; Read].

(** The credential is written iff the output read matches the pattern. *)
Definition credential_write (pattern : Re.regex) (re_flags : Z)
    (data : string) (s : Session) : list event :=
  match Re.search pattern data re_flags with
  | Some _ => [Write (normalize_cmd (secret s))]
  | None => []
  end.

(** All the calls of one complete pass of [enable]. *)
Definition enable_pass (cmd : string) (pattern : Re.regex) (re_flags : Z)
    (data : string) (s : Session) : list event :=
  enable_prefix cmd s ++ credential_write pattern re_flags data s
  ++ [Refresh LINUX_PROMPT_PRI LINUX_PROMPT_ALT 1%Q None].

(** All the calls of one complete pass of [exit_enable_mode]. *)
Definition exit_pass (exit_command : string) (s : Session) : list event :=
  trace s ++ [Write (normalize_cmd exit_command);
              Sleep ((3 # 10) * delay_factor_of s 0)%Q;
              Refresh LINUX_PROMPT_PRI LINUX_PROMPT_ALT 1%Q None].

End LinuxSSH.

(** The data the driver itself wrote on the channel. *)
Fixpoint writes (t : list event) : list string :=
  match t with
  | Write data :: t' => data :: writes t'
  | _ :: t' => writes t'
  | [] => []
  end.

(** ** class LinuxFileTransfer *)

Record LinuxFileTransfer : Type := {
  source_file : string;
  dest_file : string;
  file_system : option string;
  direction : string
}.

Section FileTransfer.

Context {parent : Parent}.

(** A static method: it takes no session. *)
Definition process_md5 (md5_output : string) (pattern : Re.regex)
  : result string :=
  parent_process_md5 md5_output pattern.

(** The methods run on the control channel [ssh_ctl_chan]. *)
Definition remote_md5 (self : LinuxFileTransfer) (base_cmd : string)
    (remote_file : option string) : M string :=
  let remote_file :=
    match remote_file with
    | None =>
        if String.eqb (direction self) "put" then Some (dest_file self)
        else if String.eqb (direction self) "get"
             then Some (source_file self)
             else None
    | Some f => Some f
    end in
  let remote_md5_cmd :=
    base_cmd ++ " " ++ PyStr.format_opt (file_system self) ++ "/"
    ++ PyStr.format_opt remote_file in
  dest_md5 <- send_command_str remote_md5_cmd 300 ;;
  match process_md5 dest_md5 Re.md5_pattern with
  | Ok digest => ret (PyStr.strip digest)
  | Raise e => raise e
  end.

Definition enable_scp (self : LinuxFileTransfer) (cmd : string) : M unit :=
  raise NotImplementedError.

Definition disable_scp (self : LinuxFileTransfer) (cmd : string) : M unit :=
  raise NotImplementedError.

End FileTransfer.

(** ** A scripted remote end, for concrete runs *)

Module Script.

Definition newline : string := String (ascii_of_nat 10) EmptyString.

Fixpoint write_all (lines : list string) : M string :=
  match lines with
  | [] => ret ""
  | l :: ls => log (Write (l ++ newline)) ;; write_all ls
  end.

(** Every read, every prompt refresh and every command gets the same
    answer. *)
Definition remote (read prompt reply : result string) : Parent :=
  {| normalize_cmd := fun c => PyStr.rstrip c ++ newline;
     delay_factor_of := fun _ d => if Qle_bool 1 d then d else 1%Q;
     read_reply := fun _ => read;
     prompt_reply := fun _ => prompt;
     command_reply := fun _ => reply;
     run_lines := fun cmds _ =>
       match cmds with
       | Some ls => write_all ls
       | None => ret ""
       end |}.

(** The shell asks for the password and stays unprivileged. *)
Definition stays_user : Parent :=
  remote (Ok "[sudo] password for admin: ") (Ok " admin@host:~$ ") (Ok "").

(** The shell asks for the password and becomes root. *)
Definition gives_root : Parent :=
  remote (Ok "[sudo] password for admin: ") (Ok " root@host:~# ") (Ok "").

(** Nothing comes back: every read times out. *)
Definition silent : Parent :=
  remote (Raise SocketTimeout) (Raise SocketTimeout) (Raise SocketTimeout).

(** A host that answers [md5sum]. *)
Definition md5_host : Parent :=
  remote (Ok "") (Ok "admin@host:~$")
    (Ok "d41d8cd98f00b204e9800998ecf8427e  /var/tmp/a.txt").

Definition user_session : Session :=
  {| username := "admin"; secret := "s3cret";
     base_prompt := "admin@host:~$"; trace := [] |}.

Definition root_session : Session :=
  {| username := "admin"; secret := "s3cret";
     base_prompt := "root@host:~#"; trace := [] |}.

Definition login_root_session : Session :=
  {| username := "root"; secret := "";
     base_prompt := "root@host:~#"; trace := [] |}.

Definition put_job : LinuxFileTransfer :=
  {| source_file := "local.txt"; dest_file := "a.txt";
     file_system := Some "/var/tmp"; direction := "put" |}.

Definition get_job : LinuxFileTransfer :=
  {| source_file := "b.txt"; dest_file := "local.txt";
     file_system := Some "/var/tmp"; direction := "get" |}.

End Script.

(** ** The command of [remote_md5] *)

(** The file [remote_md5] asks about: the one named, else the one the
    direction selects, else [None]. *)
Definition md5_remote_file (self : LinuxFileTransfer)
    (remote_file : option string) : option string :=
  match remote_file with
  | None =>
      if String.eqb (direction self) "put" then Some (dest_file self)
      else if String.eqb (direction self) "get"
           then Some (source_file self)
           else None
  | Some f => Some f
  end.

(** The f-string [f"{base_cmd} {self.file_system}/{remote_file}"]. *)
Definition md5_command (self : LinuxFileTransfer) (base_cmd : string)
    (remote_file : option string) : string :=
  base_cmd ++ " " ++ PyStr.format_opt (file_system self) ++ "/"
  ++ PyStr.format_opt (md5_remote_file self remote_file).

(** ** The exception filter of [enable] *)

Definition timeout_msg : string :=
  "Timed-out reading channel, data not available.".

(** What the [except socket.timeout] clause of [enable] makes of an
    exception raised inside the [try]. *)
Definition through_except (e : exn) : exn :=
  if is_socket_timeout e then NetmikoTimeoutException timeout_msg else e.

(** ** A shell that follows the commands *)

Module Shell.




(** The channel is closed: every read and every refresh fails with an
    error that is not a timeout. *)
Definition closed : Parent :=
  Script.remote (Raise (OtherError "EOFError")) (Raise (OtherError "EOFError"))
    (Raise (OtherError "EOFError")).

(** The password prompt arrives, then the prompt refresh times out. *)
Definition stalls_after_password : Parent :=
  Script.remote (Ok "[sudo] password for admin: ") (Raise SocketTimeout)
    (Ok "").


(** A transfer without a file system. *)
Definition rootless_job : LinuxFileTransfer :=
  {| source_file := "b.txt"; dest_file := "a.txt";
     file_system := None; direction := "put" |}.

End Shell.

(** ** Strings: the facts the checksum parser needs *)

Module PyStrFacts.
Import PyStr.

Lemma append_empty_r (s : string) : s ++ "" = s.
Proof. induction s as [|c r IH]; simpl; [reflexivity | now rewrite IH]. Qed.

Lemma take_length_app (a b : string) : take (String.length a) (a ++ b) = a.
Proof.
  induction a as [|c r IH]; simpl.
  - destruct b; reflexivity.
  - now rewrite IH.
Qed.

Lemma drop_length_app (a b : string) : drop (String.length a) (a ++ b) = b.
Proof.
  induction a as [|c r IH]; simpl; [destruct b; reflexivity | exact IH].
Qed.

(** A run of [p]-characters followed by a character outside [p] is
    exactly the span. *)
Lemma span_stops (p : ascii -> bool) (a : string) (c : ascii) (b : string) :
  all p a = true -> p c = false ->
  span p (a ++ String c b) = String.length a.
Proof.
  intros Ha Hc. induction a as [|x r IH]; simpl in *.
  - now rewrite Hc.
  - apply andb_true_iff in Ha as [Hx Hr]. rewrite Hx. now rewrite IH.
Qed.

Lemma span_isspace_nonspace (s : string) :
  all nonspace s = true -> span isspace s = 0.
Proof.
  destruct s as [|c r]; simpl; [reflexivity|].
  intros H. apply andb_true_iff in H as [Hc _].
  unfold nonspace in Hc. apply negb_true_iff in Hc. now rewrite Hc.
Qed.

Lemma rev_acc_twice (s a b : string) :
  rev_acc (rev_acc s a) b = rev_acc a (s ++ b).
Proof.
  revert a b. induction s as [|c r IH]; intros a b; simpl.
  - reflexivity.
  - now rewrite IH.
Qed.

Lemma rev_involutive (s : string) : rev (rev s) = s.
Proof. unfold rev. rewrite rev_acc_twice. simpl. apply append_empty_r. Qed.

Lemma all_rev_acc (p : ascii -> bool) (s acc : string) :
  all p (rev_acc s acc) = all p s && all p acc.
Proof.
  revert acc. induction s as [|c r IH]; intros acc; simpl.
  - reflexivity.
  - rewrite IH. simpl. destruct (p c), (all p r); reflexivity.
Qed.

Lemma lstrip_nonspace (s : string) : all nonspace s = true -> lstrip s = s.
Proof.
  intros H. unfold lstrip. rewrite (span_isspace_nonspace s H).
  destruct s; reflexivity.
Qed.

(** A token without white space is left alone by [strip]. *)
Lemma strip_nonspace (s : string) : all nonspace s = true -> strip s = s.
Proof.
  intros H. unfold strip, rstrip. rewrite (lstrip_nonspace s H).
  rewrite lstrip_nonspace.
  - apply rev_involutive.
  - unfold rev. rewrite all_rev_acc, H. reflexivity.
Qed.

End PyStrFacts.

(** ** The checksum pattern on conventional output *)

Section ChecksumPattern.
Import PyStr PyStrFacts.

Variables digest sep name : string.
Hypothesis digest_nonempty : digest <> "".
Hypothesis digest_token : all nonspace digest = true.
Hypothesis sep_nonempty : sep <> "".
Hypothesis sep_blank : all isspace sep = true.

(** On [<digest><blanks><name>] the pattern [^(\S+)\s+] matches at once,
    without giving a character back, and captures the digest. *)
Lemma md5_pattern_captures_digest :
  Re.search Re.md5_pattern (digest ++ sep ++ name) 0 = Some [digest].
Proof.
  destruct sep as [|b sep'] eqn:Esep; [congruence|].
  pose proof sep_blank as Hb. simpl in Hb.
  apply andb_true_iff in Hb as [Hb Hsep'].
  assert (Hspan : span (Re.accepts false Re.NonSpace)
                    (digest ++ String b sep' ++ name)
                  = String.length digest).
  { apply (span_stops (Re.accepts false Re.NonSpace));
      [exact digest_token | simpl; now rewrite Hb]. }
  assert (Hlen : exists k, String.length digest = S k).
  { destruct digest; [congruence | simpl; eauto]. }
  destruct Hlen as [k Hk].
  unfold Re.search, Re.md5_pattern. simpl Re.bol. simpl Re.atoms.
  change (Z.testbit 0 1) with false. cbv iota.
  cbn [Re.match_here Re.cls Re.rep Re.grp].
  rewrite Hspan, Hk. cbn [Re.back]. rewrite <- Hk.
  rewrite drop_length_app, take_length_app.
  simpl. rewrite Hb. reflexivity.
Qed.

End ChecksumPattern.

(** ** Running the driver: proof steps shared by the theorems *)

Lemma writes_app (t u : list event) : writes (t ++ u) = (writes t ++ writes u)%list.
Proof.
  induction t as [|e t IH]; simpl; [reflexivity|].
  destruct e; simpl; now rewrite IH.
Qed.

(** Unfold the control operators and the inherited helpers, leaving the
    prompt test and the remote replies in place. *)
Ltac run :=
  cbv beta iota zeta delta
    [bind ret raise try_except get_session log store_base_prompt
     write_channel sleep read_channel select_delay_factor
     parent_set_base_prompt parent_check_enable_mode send_command_str
     set_base_prompt set_base_prompt_default check_enable_mode
     check_config_mode exit_enable_mode enable config_mode exit_config_mode
     save_config parent_send_config_set send_config_set
     remote_md5 enable_scp disable_scp privileged refreshed];
  cbn [trace username secret base_prompt with_trace with_base_prompt
       fst snd negb is_socket_timeout].

Ltac tidy_trace :=
  repeat rewrite <- app_assoc; cbn [app].

Section LinuxSSHFacts.

Context {env : Environ} {parent : Parent}.

Lemma enable_when_privileged cmd pattern enable_pattern re_flags s :
  privileged s = true ->
  enable cmd pattern enable_pattern re_flags s = (Ok "", s).
Proof.
  intros H. unfold privileged in H. run. now rewrite H.
Qed.

Lemma exit_when_unprivileged exit_command s :
  privileged s = false -> exit_enable_mode exit_command s = (Ok "", s).
Proof.
  intros H. unfold privileged in H. run. now rewrite H.
Qed.

(** One complete pass of [exit_enable_mode] from a privileged session. *)
Lemma exit_pass_run exit_command s line :
  privileged s = true ->
  prompt_reply (exit_pass exit_command s) = Ok line ->
  exit_enable_mode exit_command s
  = (if privileged (refreshed s (exit_pass exit_command s) line)
     then Raise (ValueError "Failed to exit enable mode.")
     else Ok "",
     refreshed s (exit_pass exit_command s) line).
Proof.
  intros Hp Hr. unfold exit_pass in *. run.
  unfold privileged in Hp. rewrite Hp. tidy_trace. rewrite Hr. run.
  destruct (PyStr.endswith (PyStr.strip line) LINUX_PROMPT_ROOT);
    reflexivity.
Qed.

(** A prompt refresh that fails inside [exit_enable_mode] ends the call
    with the very exception the refresh raised. *)
Lemma exit_refresh_raises exit_command s e :
  privileged s = true ->
  prompt_reply (exit_pass exit_command s) = Raise e ->
  exit_enable_mode exit_command s
  = (Raise e, with_trace s (exit_pass exit_command s)).
Proof.
  intros Hp Hr. unfold exit_pass in *. run.
  unfold privileged in Hp. rewrite Hp. tidy_trace. rewrite Hr. reflexivity.
Qed.

(** One complete pass of [enable] from an unprivileged session. *)
Lemma enable_pass_run cmd pattern enable_pattern re_flags s data line :
  privileged s = false ->
  read_reply (enable_prefix cmd s) = Ok data ->
  prompt_reply (enable_pass cmd pattern re_flags data s) = Ok line ->
  enable cmd pattern enable_pattern re_flags s
  = (if privileged
          (refreshed s (enable_pass cmd pattern re_flags data s) line)
     then Ok data
     else Raise (ValueError enable_failure_msg),
     refreshed s (enable_pass cmd pattern re_flags data s) line).
Proof.
  intros Hp Hread Hprompt.
  unfold enable_pass, enable_prefix, credential_write in *. run.
  unfold privileged in Hp. rewrite Hp. cbn [negb]. tidy_trace. rewrite Hread. run.
  change ("" ++ data) with data.
  destruct (Re.search pattern data re_flags); run; tidy_trace;
    revert Hprompt; tidy_trace; intros Hprompt; rewrite Hprompt; run;
    destruct (PyStr.endswith (PyStr.strip line) LINUX_PROMPT_ROOT);
    reflexivity.
Qed.

(** A timeout of the read in [enable] comes out as the driver's own
    timeout exception. *)
Lemma enable_read_timeout cmd pattern enable_pattern re_flags s :
  privileged s = false ->
  read_reply (enable_prefix cmd s) = Raise SocketTimeout ->
  enable cmd pattern enable_pattern re_flags s
  = (Raise (NetmikoTimeoutException
              "Timed-out reading channel, data not available."),
     with_trace s (enable_prefix cmd s)).
Proof.
  intros Hp Hread. unfold enable_prefix in *. run.
  unfold privileged in Hp. rewrite Hp. cbn [negb]. tidy_trace. rewrite Hread. reflexivity.
Qed.

(** So does a timeout of the prompt refresh in [enable]. *)
Lemma enable_refresh_timeout cmd pattern enable_pattern re_flags s data :
  privileged s = false ->
  read_reply (enable_prefix cmd s) = Ok data ->
  prompt_reply (enable_pass cmd pattern re_flags data s)
  = Raise SocketTimeout ->
  enable cmd pattern enable_pattern re_flags s
  = (Raise (NetmikoTimeoutException
              "Timed-out reading channel, data not available."),
     with_trace s (enable_pass cmd pattern re_flags data s)).
Proof.
  intros Hp Hread Hprompt.
  unfold enable_pass, enable_prefix, credential_write in *. run.
  unfold privileged in Hp. rewrite Hp. cbn [negb]. tidy_trace. rewrite Hread. run.
  change ("" ++ data) with data.
  destruct (Re.search pattern data re_flags); run; tidy_trace;
    revert Hprompt; tidy_trace; intros Hprompt; rewrite Hprompt;
    reflexivity.
Qed.

End LinuxSSHFacts.

(** ** Becoming root and leaving root *)

Section Elevation.

Context {env : Environ} {parent : Parent}.

(** C1.  When the session is not privileged, [enable] writes the command,
    reads, writes the secret if the output matches the pattern, and
    refreshes the prompt; if the refreshed prompt still does not end in
    the root terminator, the call raises [ValueError] with the message
    that asks for the 'secret' argument.  The calls made are those of one
    pass: the command is written once and nothing is tried again. *)
Theorem enable_failure_single_attempt
    cmd pattern enable_pattern re_flags s data line :
  privileged s = false ->
  read_reply (enable_prefix cmd s) = Ok data ->
  prompt_reply (enable_pass cmd pattern re_flags data s) = Ok line ->
  privileged (refreshed s (enable_pass cmd pattern re_flags data s) line)
  = false ->
  let s' := snd (enable cmd pattern enable_pattern re_flags s) in
  fst (enable cmd pattern enable_pattern re_flags s)
  = Raise (ValueError
             ("Failed to enter enable mode. Please ensure you pass "
              ++ "the 'secret' argument to ConnectHandler."))
  /\ trace s'
     = (trace s
        ++ [Write (normalize_cmd cmd);
            Sleep ((3 # 10) * delay_factor_of s 0)%Q; Read]
        ++ credential_write pattern re_flags data s
        ++ [Refresh LINUX_PROMPT_PRI LINUX_PROMPT_ALT 1%Q None])%list
  /\ writes (trace s')
     = (writes (trace s) ++ normalize_cmd cmd
        :: writes (credential_write pattern re_flags data s))%list
  /\ base_prompt s' = PyStr.strip line.
Proof.
  intros Hp Hread Hprompt Hstill s'. subst s'.
  rewrite (enable_pass_run cmd pattern enable_pattern re_flags s data line
             Hp Hread Hprompt).
  rewrite Hstill. cbn [fst snd].
  repeat split.
  - unfold refreshed, enable_pass, enable_prefix. cbn [trace with_trace
      with_base_prompt]. now tidy_trace.
  - unfold refreshed, enable_pass, enable_prefix. cbn [trace with_trace
      with_base_prompt]. rewrite !writes_app. cbn [writes app].
    rewrite app_nil_r, <- app_assoc. reflexivity.
Qed.

(** C3.  [exit_enable_mode] on an unprivileged session returns [""] and
    leaves the session, its trace included, untouched.  On a privileged
    session it writes the exit command once, sleeps 0.3 times the delay
    factor and refreshes the prompt; once the prompt is refreshed it
    raises [ValueError "Failed to exit enable mode."] iff the prompt still
    ends in the root terminator, and returns [""] otherwise. *)
Theorem exit_enable_mode_single_attempt exit_command s :
  (privileged s = false ->
   exit_enable_mode exit_command s = (Ok "", s))
  /\ (privileged s = true ->
      forall line,
        prompt_reply (exit_pass exit_command s) = Ok line ->
        let r := exit_enable_mode exit_command s in
        trace (snd r)
        = (trace s
           ++ [Write (normalize_cmd exit_command);
               Sleep ((3 # 10) * delay_factor_of s 0)%Q;
               Refresh LINUX_PROMPT_PRI LINUX_PROMPT_ALT 1%Q None])%list
        /\ writes (trace (snd r))
           = (writes (trace s) ++ [normalize_cmd exit_command])%list
        /\ base_prompt (snd r) = PyStr.strip line
        /\ (fst r = Raise (ValueError "Failed to exit enable mode.")
            <-> privileged (snd r) = true)
        /\ (fst r = Ok "" <-> privileged (snd r) = false)).
Proof.
  split; [apply exit_when_unprivileged|].
  intros Hp line Hr r. subst r.
  rewrite (exit_pass_run exit_command s line Hp Hr). cbn [fst snd].
  repeat split.
  - unfold refreshed, exit_pass. cbn [trace with_trace with_base_prompt].
    rewrite writes_app. reflexivity.
  - destruct (privileged (refreshed s (exit_pass exit_command s) line));
      [reflexivity | discriminate].
  - intros ->. reflexivity.
  - destruct (privileged (refreshed s (exit_pass exit_command s) line));
      [discriminate | reflexivity].
  - intros ->. reflexivity.
Qed.

(** C4.  On a privileged session [enable] returns [""] and leaves the
    session, its trace included, untouched: nothing is written.  A second
    call right after the first does the same. *)
Theorem enable_idempotent_when_privileged
    cmd pattern enable_pattern re_flags
    cmd' pattern' enable_pattern' re_flags' s :
  privileged s = true ->
  enable cmd pattern enable_pattern re_flags s = (Ok "", s)
  /\ writes (trace (snd (enable cmd pattern enable_pattern re_flags s)))
     = writes (trace s)
  /\ (first <- enable cmd pattern enable_pattern re_flags ;;
      second <- enable cmd' pattern' enable_pattern' re_flags' ;;
      ret (first, second)) s
     = (Ok ("", ""), s).
Proof.
  intros Hp.
  pose proof (enable_when_privileged cmd pattern enable_pattern re_flags
                s Hp) as H1.
  pose proof (enable_when_privileged cmd' pattern' enable_pattern'
                re_flags' s Hp) as H2.
  repeat split.
  - exact H1.
  - now rewrite H1.
  - unfold bind, ret. now rewrite H1, H2.
Qed.

(** C10.  Whenever [exit_enable_mode] returns, it returns [""]: also when
    it wrote the exit command and the prompt was read again. *)
Theorem exit_enable_mode_returns_empty exit_command s output s' :
  exit_enable_mode exit_command s = (Ok output, s') -> output = "".
Proof.
  destruct (privileged s) eqn:Hp.
  - destruct (prompt_reply (exit_pass exit_command s)) as [line|e] eqn:Hr.
    + rewrite (exit_pass_run exit_command s line Hp Hr).
      destruct (privileged (refreshed s (exit_pass exit_command s) line));
        intros H; inversion H; reflexivity.
    + rewrite (exit_refresh_raises exit_command s e Hp Hr). discriminate.
  - rewrite (exit_when_unprivileged exit_command s Hp).
    intros H; inversion H; reflexivity.
Qed.

End Elevation.

(** ** Timeouts *)

(** C2.  A timeout is translated inside [enable] only (see
    [enable_read_timeout] and [enable_refresh_timeout]).  In
    [exit_enable_mode] the prompt refresh is not guarded: on a root
    session whose channel stays silent the call ends with the raw
    [socket.timeout], not with [NetmikoTimeoutException]. *)
Theorem exit_enable_mode_raw_socket_timeout :
  @exit_enable_mode default_environ Script.silent "exit"
    Script.root_session
  = (Raise SocketTimeout,
     with_trace Script.root_session
       [Write ("exit" ++ Script.newline); Sleep ((3 # 10) * 1)%Q;
        Refresh "$" "#" 1%Q None])
  /\ @enable default_environ Script.silent "sudo -s" (Re.literal "ssword")
       None Re.IGNORECASE Script.user_session
     = (Raise (NetmikoTimeoutException
                 "Timed-out reading channel, data not available."),
        with_trace Script.user_session
          [Write ("sudo -s" ++ Script.newline); Sleep ((3 # 10) * 1)%Q;
           Read]).
Proof. split; reflexivity. Qed.

(** ** Command mode is root *)

Section CommandMode.

Context {env : Environ} {parent : Parent}.

(** [enable] never looks at its [enable_pattern] argument. *)
Lemma enable_ignores_enable_pattern cmd pattern ep ep' re_flags :
  enable cmd pattern ep re_flags = enable cmd pattern ep' re_flags.
Proof. reflexivity. Qed.

(** Without the exit step the generic execution is the execution of the
    lines. *)
Lemma parent_send_config_set_no_exit config_commands kwargs s :
  parent_send_config_set config_commands false kwargs s
  = run_lines config_commands kwargs s.
Proof.
  unfold parent_send_config_set, bind, ret.
  destruct (run_lines config_commands kwargs s) as [[output|e] s'];
    reflexivity.
Qed.

(** C5.  For user [root], [send_config_set] calls the inherited method with
    [exit_config_mode=False] whatever the caller asked for, so the run is
    the execution of the lines alone, without the exit step.  For any
    other user the caller's flag is handed on as it is. *)
Theorem send_config_set_root_never_exits
    config_commands exit_config_mode_flag kwargs s :
  (username s = "root" ->
   send_config_set config_commands exit_config_mode_flag kwargs s
   = parent_send_config_set config_commands false kwargs s
   /\ send_config_set config_commands exit_config_mode_flag kwargs s
      = run_lines config_commands kwargs s)
  /\ (username s <> "root" ->
      send_config_set config_commands exit_config_mode_flag kwargs s
      = parent_send_config_set config_commands exit_config_mode_flag
          kwargs s).
Proof.
  split.
  - intros Hroot.
    assert (H : send_config_set config_commands exit_config_mode_flag
                  kwargs s
                = parent_send_config_set config_commands false kwargs s).
    { unfold send_config_set, bind, get_session. rewrite Hroot.
      reflexivity. }
    split; [exact H|].
    rewrite H. apply parent_send_config_set_no_exit.
  - intros Hother. unfold send_config_set, bind, get_session.
    apply String.eqb_neq in Hother. rewrite Hother. reflexivity.
Qed.

(** C9.  [config_mode] is [enable], [exit_config_mode] is
    [exit_enable_mode] and [check_config_mode] is [check_enable_mode]:
    the same result and the same session afterwards, for all arguments.
    The arguments the two sides do not share ([enable_pattern] of
    [enable], [pattern] of the two others) are ignored. *)
Theorem command_mode_is_enable_mode
    cmd (pattern : Re.regex) enable_pattern re_flags
    exit_command (exit_pattern : string)
    check_string (check_pattern : string) s :
  config_mode cmd pattern re_flags s
  = enable cmd pattern enable_pattern re_flags s
  /\ exit_config_mode exit_command exit_pattern s
     = exit_enable_mode exit_command s
  /\ check_config_mode check_string check_pattern s
     = check_enable_mode check_string s.
Proof.
  unfold config_mode.
  rewrite (enable_ignores_enable_pattern cmd pattern None enable_pattern).
  repeat split.
Qed.

End CommandMode.

(** ** Checksums *)

(** C7.  [process_md5] is a function of its two arguments alone: it takes no
    session.  On output of the form [<digest><blanks><name>], with a
    non-empty digest free of white space and at least one blank, it returns
    the digest, which has no white space around it. *)
Theorem process_md5_leading_token digest sep name :
  digest <> "" -> PyStr.all PyStr.nonspace digest = true ->
  sep <> "" -> PyStr.all PyStr.isspace sep = true ->
  process_md5 (digest ++ sep ++ name) Re.md5_pattern = Ok digest
  /\ PyStr.strip digest = digest.
Proof.
  intros Hd Hdt Hs Hsb. split.
  - unfold process_md5, parent_process_md5.
    now rewrite (md5_pattern_captures_digest digest sep name Hd Hdt Hs Hsb).
  - now apply PyStrFacts.strip_nonspace.
Qed.

Section Checksum.

Context {parent : Parent}.

(** C6.  With no file named, a root directory set and a direction of
    ["put"] or ["get"], [remote_md5] asks about the destination file for
    ["put"] and about the source file for ["get"]; it sends exactly
    [<base_cmd> <root>/<file>] with [read_timeout=300], once, and returns
    the stripped token that [process_md5] extracts from the reply: the
    digest itself when the reply is [<digest><blanks><name>]. *)
Theorem remote_md5_command_and_digest self base_cmd root s raw :
  file_system self = Some root ->
  direction self = "put" \/ direction self = "get" ->
  let target :=
    if String.eqb (direction self) "put" then dest_file self
    else source_file self in
  let t :=
    (trace s ++ [SendCommand (base_cmd ++ " " ++ root ++ "/" ++ target)
                   300])%list in
  command_reply t = Ok raw ->
  remote_md5 self base_cmd None s
  = (match process_md5 raw Re.md5_pattern with
     | Ok token => Ok (PyStr.strip token)
     | Raise e => Raise e
     end, with_trace s t)
  /\ (forall digest sep name,
        raw = digest ++ sep ++ name ->
        digest <> "" -> PyStr.all PyStr.nonspace digest = true ->
        sep <> "" -> PyStr.all PyStr.isspace sep = true ->
        remote_md5 self base_cmd None s = (Ok digest, with_trace s t)).
Proof.
  intros Hroot Hdir target t Hreply.
  assert (Hrun : remote_md5 self base_cmd None s
                 = (match process_md5 raw Re.md5_pattern with
                    | Ok token => Ok (PyStr.strip token)
                    | Raise e => Raise e
                    end, with_trace s t)).
  { subst t target. run. rewrite Hroot. cbn [PyStr.format_opt].
    destruct Hdir as [Hd | Hd]; rewrite Hd in *; cbn [String.eqb Ascii.eqb
      Bool.eqb PyStr.format_opt] in *; rewrite Hreply;
      destruct (process_md5 raw Re.md5_pattern); reflexivity. }
  split; [exact Hrun|].
  intros digest sep name -> Hd Hdt Hs Hsb. rewrite Hrun.
  unfold process_md5, parent_process_md5.
  rewrite (md5_pattern_captures_digest digest sep name Hd Hdt Hs Hsb).
  now rewrite (PyStrFacts.strip_nonspace digest Hdt).
Qed.

End Checksum.

(** ** Operations the Linux driver does not have *)

(** C8.  [save_config], [enable_scp] and [disable_scp] raise
    [NotImplementedError] for all arguments and leave the session as it
    was. *)
Theorem unsupported_operations_raise args kwargs self cmd cmd' s :
  save_config args kwargs s = (Raise NotImplementedError, s)
  /\ enable_scp self cmd s = (Raise NotImplementedError, s)
  /\ disable_scp self cmd' s = (Raise NotImplementedError, s).
Proof. repeat split. Qed.

(** ** Concrete runs *)

(** [sudo -s] on a user shell that asks for the password and stays a user
    shell: one pass, then the [ValueError]. *)
Lemma enable_failure_single_attempt_witness :
  @privileged default_environ Script.user_session = false
  /\ fst (@enable default_environ Script.stays_user "sudo -s"
            (Re.literal "ssword") None Re.IGNORECASE Script.user_session)
     = Raise (ValueError
                ("Failed to enter enable mode. Please ensure you pass "
                 ++ "the 'secret' argument to ConnectHandler."))
  /\ writes (trace (snd (@enable default_environ Script.stays_user "sudo -s"
                           (Re.literal "ssword") None Re.IGNORECASE
                           Script.user_session)))
     = ["sudo -s" ++ Script.newline; "s3cret" ++ Script.newline].
Proof.
  split; [reflexivity|].
  destruct (@enable_failure_single_attempt default_environ Script.stays_user
              "sudo -s" (Re.literal "ssword") None Re.IGNORECASE
              Script.user_session "[sudo] password for admin: "
              " admin@host:~$ " eq_refl eq_refl eq_refl eq_refl)
    as (Hraise & _ & Hwrites & _).
  split; [exact Hraise | exact Hwrites].
Defined.

(** [exit] on a user shell does nothing; on a root shell that falls back to
    the user prompt it writes [exit] once and returns. *)
Lemma exit_enable_mode_single_attempt_witness :
  @exit_enable_mode default_environ Script.stays_user "exit"
    Script.user_session
  = (Ok "", Script.user_session)
  /\ @privileged default_environ Script.root_session = true
  /\ writes (trace (snd (@exit_enable_mode default_environ Script.stays_user
                           "exit" Script.root_session)))
     = ["exit" ++ Script.newline]
  /\ (fst (@exit_enable_mode default_environ Script.stays_user "exit"
             Script.root_session) = Ok ""
      <-> @privileged default_environ
            (snd (@exit_enable_mode default_environ Script.stays_user "exit"
                    Script.root_session)) = false).
Proof.
  destruct (@exit_enable_mode_single_attempt default_environ
              Script.stays_user "exit" Script.user_session) as [Huser _].
  destruct (@exit_enable_mode_single_attempt default_environ
              Script.stays_user "exit" Script.root_session) as [_ Hroot].
  destruct (Hroot eq_refl " admin@host:~$ " eq_refl)
    as (_ & Hwrites & _ & _ & Hok).
  split; [exact (Huser eq_refl)|].
  split; [reflexivity|].
  split; [exact Hwrites | exact Hok].
Defined.

(** On a root shell [enable] is silent, twice in a row. *)
Lemma enable_idempotent_when_privileged_witness :
  @privileged default_environ Script.root_session = true
  /\ @enable default_environ Script.gives_root "sudo -s"
       (Re.literal "ssword") None Re.IGNORECASE Script.root_session
     = (Ok "", Script.root_session).
Proof.
  split; [reflexivity|].
  exact (proj1 (@enable_idempotent_when_privileged default_environ
                  Script.gives_root "sudo -s" (Re.literal "ssword") None
                  Re.IGNORECASE "sudo -s" (Re.literal "ssword") None
                  Re.IGNORECASE Script.root_session eq_refl)).
Defined.

(** The run of [exit_enable_mode] that really writes [exit] returns [""]. *)
Lemma exit_enable_mode_returns_empty_witness :
  exists s',
    @exit_enable_mode default_environ Script.stays_user "exit"
      Script.root_session = (Ok "", s')
    /\ writes (trace s') = ["exit" ++ Script.newline]
    /\ "" = "".
Proof.
  exists (snd (@exit_enable_mode default_environ Script.stays_user "exit"
                 Script.root_session)).
  split; [reflexivity|]. split; [reflexivity|].
  exact (@exit_enable_mode_returns_empty default_environ Script.stays_user
           "exit" Script.root_session ""
           (snd (@exit_enable_mode default_environ Script.stays_user "exit"
                   Script.root_session)) eq_refl).
Defined.

(** A session logged in as root sends its lines and no [exit], although the
    caller asked for it. *)
Lemma send_config_set_root_never_exits_witness :
  username Script.login_root_session = "root"
  /\ @send_config_set default_environ Script.gives_root (Some ["ls"; "pwd"])
       true [] Script.login_root_session
     = @run_lines Script.gives_root (Some ["ls"; "pwd"]) []
         Script.login_root_session
  /\ username Script.user_session <> "root"
  /\ @send_config_set default_environ Script.stays_user (Some ["ls"]) true []
       Script.user_session
     = @parent_send_config_set default_environ Script.stays_user (Some ["ls"])
         true [] Script.user_session.
Proof.
  assert (Hother : username Script.user_session <> "root")
    by (simpl; discriminate).
  split; [reflexivity|].
  split.
  - exact (proj2 (proj1 (@send_config_set_root_never_exits default_environ
                           Script.gives_root (Some ["ls"; "pwd"]) true []
                           Script.login_root_session) eq_refl)).
  - split; [exact Hother|].
    exact (proj2 (@send_config_set_root_never_exits default_environ
                    Script.stays_user (Some ["ls"]) true []
                    Script.user_session) Hother).
Defined.

(** The checksum of a file put under [/var/tmp], and of one fetched from
    there. *)
Lemma remote_md5_command_and_digest_witness :
  file_system Script.put_job = Some "/var/tmp"
  /\ direction Script.put_job = "put"
  /\ @remote_md5 Script.md5_host Script.put_job "md5sum" None
       Script.user_session
     = (Ok "d41d8cd98f00b204e9800998ecf8427e",
        with_trace Script.user_session
          [SendCommand "md5sum /var/tmp/a.txt" 300])
  /\ direction Script.get_job = "get"
  /\ @remote_md5 Script.md5_host Script.get_job "md5sum" None
       Script.user_session
     = (Ok "d41d8cd98f00b204e9800998ecf8427e",
        with_trace Script.user_session
          [SendCommand "md5sum /var/tmp/b.txt" 300]).
Proof.
  split; [reflexivity|]. split; [reflexivity|]. split.
  - refine (proj2 (@remote_md5_command_and_digest Script.md5_host
                     Script.put_job "md5sum" "/var/tmp" Script.user_session
                     "d41d8cd98f00b204e9800998ecf8427e  /var/tmp/a.txt"
                     eq_refl (or_introl eq_refl) eq_refl)
              "d41d8cd98f00b204e9800998ecf8427e" "  " "/var/tmp/a.txt"
              eq_refl _ eq_refl _ eq_refl); discriminate.
  - split; [reflexivity|].
    refine (proj2 (@remote_md5_command_and_digest Script.md5_host
                     Script.get_job "md5sum" "/var/tmp" Script.user_session
                     "d41d8cd98f00b204e9800998ecf8427e  /var/tmp/a.txt"
                     eq_refl (or_intror eq_refl) eq_refl)
              "d41d8cd98f00b204e9800998ecf8427e" "  " "/var/tmp/a.txt"
              eq_refl _ eq_refl _ eq_refl); discriminate.
Defined.

(** The example of the specification. *)
Lemma process_md5_leading_token_witness :
  process_md5 "d41d8cd98f00b204e9800998ecf8427e  file.bin" Re.md5_pattern
  = Ok "d41d8cd98f00b204e9800998ecf8427e".
Proof.
  refine (proj1 (process_md5_leading_token
                   "d41d8cd98f00b204e9800998ecf8427e" "  " "file.bin"
                   _ eq_refl _ eq_refl)); discriminate.
Defined.

(** ** Every run of [enable] and of [exit_enable_mode] *)

Section AllRuns.

Context {env : Environ} {parent : Parent}.

Lemma enable_read_raises cmd pattern enable_pattern re_flags s e :
  privileged s = false ->
  read_reply (enable_prefix cmd s) = Raise e ->
  enable cmd pattern enable_pattern re_flags s
  = (Raise (through_except e), with_trace s (enable_prefix cmd s)).
Proof.
  intros Hp Hread. unfold enable_prefix, through_except in *. run.
  unfold privileged in Hp. rewrite Hp. cbn [negb]. tidy_trace.
  rewrite Hread. destruct e; reflexivity.
Qed.

Lemma enable_refresh_raises cmd pattern enable_pattern re_flags s data e :
  privileged s = false ->
  read_reply (enable_prefix cmd s) = Ok data ->
  prompt_reply (enable_pass cmd pattern re_flags data s) = Raise e ->
  enable cmd pattern enable_pattern re_flags s
  = (Raise (through_except e),
     with_trace s (enable_pass cmd pattern re_flags data s)).
Proof.
  intros Hp Hread Hprompt.
  unfold enable_pass, enable_prefix, credential_write, through_except in *.
  run. unfold privileged in Hp. rewrite Hp. cbn [negb]. tidy_trace.
  rewrite Hread. run. change ("" ++ data) with data.
  destruct (Re.search pattern data re_flags); run; tidy_trace;
    revert Hprompt; tidy_trace; intros Hprompt; rewrite Hprompt;
    destruct e; reflexivity.
Qed.

Lemma writes_enable_prefix cmd s :
  writes (enable_prefix cmd s) = (writes (trace s) ++ [normalize_cmd cmd])%list.
Proof. unfold enable_prefix. now rewrite writes_app. Qed.

Lemma writes_enable_pass cmd pattern re_flags data s :
  writes (enable_pass cmd pattern re_flags data s)
  = (writes (trace s) ++ normalize_cmd cmd
     :: writes (credential_write pattern re_flags data s))%list.
Proof.
  unfold enable_pass. rewrite !writes_app, writes_enable_prefix.
  cbn [writes]. rewrite app_nil_r, <- app_assoc. reflexivity.
Qed.

Lemma writes_exit_pass exit_command s :
  writes (exit_pass exit_command s)
  = (writes (trace s) ++ [normalize_cmd exit_command])%list.
Proof. unfold exit_pass. now rewrite writes_app. Qed.



End AllRuns.

(** ** Elevation: success, errors and what is written *)

Section ElevationRuns.

Context {env : Environ} {parent : Parent}.

(** X1.  When the refreshed prompt ends in the root terminator, [enable]
    returns the output of its single [read_channel] call, the session is
    privileged, and a further [enable] returns [""] without touching it. *)
Theorem enable_success_returns_output
    cmd pattern enable_pattern re_flags s data line :
  privileged s = false ->
  read_reply (enable_prefix cmd s) = Ok data ->
  prompt_reply (enable_pass cmd pattern re_flags data s) = Ok line ->
  PyStr.endswith (PyStr.strip line) LINUX_PROMPT_ROOT = true ->
  let r := enable cmd pattern enable_pattern re_flags s in
  fst r = Ok data
  /\ privileged (snd r) = true
  /\ base_prompt (snd r) = PyStr.strip line
  /\ writes (trace (snd r))
     = (writes (trace s) ++ normalize_cmd cmd
        :: writes (credential_write pattern re_flags data s))%list
  /\ (forall cmd' pattern' enable_pattern' re_flags',
        enable cmd' pattern' enable_pattern' re_flags' (snd r)
        = (Ok "", snd r)).
Proof.
  intros Hp Hread Hprompt Hroot r. subst r.
  rewrite (enable_pass_run cmd pattern enable_pattern re_flags s data line
             Hp Hread Hprompt).
  assert (Hnow : privileged
                   (refreshed s (enable_pass cmd pattern re_flags data s)
                      line) = true) by exact Hroot.
  rewrite Hnow. cbn [fst snd].
  split; [reflexivity|]. split; [exact Hnow|]. split; [reflexivity|].
  split.
  - unfold refreshed. cbn [trace with_trace with_base_prompt].
    apply writes_enable_pass.
  - intros. now apply enable_when_privileged.
Qed.


(** X3.  A [socket.timeout] raised by [read_channel] or by the prompt
    refresh inside [enable] comes out as [NetmikoTimeoutException]; the
    session is still unprivileged. *)
Theorem enable_translates_socket_timeout
    cmd pattern enable_pattern re_flags s :
  privileged s = false ->
  (read_reply (enable_prefix cmd s) = Raise SocketTimeout
   \/ exists data,
        read_reply (enable_prefix cmd s) = Ok data
        /\ prompt_reply (enable_pass cmd pattern re_flags data s)
           = Raise SocketTimeout) ->
  let r := enable cmd pattern enable_pattern re_flags s in
  fst r = Raise (NetmikoTimeoutException
                   "Timed-out reading channel, data not available.")
  /\ privileged (snd r) = false.
Proof.
  intros Hp [Hread | (data & Hread & Hprompt)] r; subst r.
  - rewrite (enable_read_raises cmd pattern enable_pattern re_flags s _
               Hp Hread). split; [reflexivity | exact Hp].
  - rewrite (enable_refresh_raises cmd pattern enable_pattern re_flags s
               data _ Hp Hread Hprompt). split; [reflexivity | exact Hp].
Qed.

(** X4.  An exception other than [socket.timeout] raised by [read_channel]
    or by the prompt refresh leaves [enable] unchanged. *)
Theorem enable_passes_other_errors
    cmd pattern enable_pattern re_flags s e :
  is_socket_timeout e = false ->
  privileged s = false ->
  (read_reply (enable_prefix cmd s) = Raise e
   \/ exists data,
        read_reply (enable_prefix cmd s) = Ok data
        /\ prompt_reply (enable_pass cmd pattern re_flags data s)
           = Raise e) ->
  fst (enable cmd pattern enable_pattern re_flags s) = Raise e.
Proof.
  intros He Hp [Hread | (data & Hread & Hprompt)].
  - rewrite (enable_read_raises cmd pattern enable_pattern re_flags s e
               Hp Hread). unfold through_except. now rewrite He.
  - rewrite (enable_refresh_raises cmd pattern enable_pattern re_flags s
               data e Hp Hread Hprompt). unfold through_except.
    now rewrite He.
Qed.


(** X6.  When the prompt refresh inside [exit_enable_mode] raises, the
    same exception leaves the call; the exit command has been written by
    then, and the cached prompt is still the root prompt. *)
Theorem exit_enable_mode_refresh_error exit_command s e :
  privileged s = true ->
  prompt_reply (exit_pass exit_command s) = Raise e ->
  let r := exit_enable_mode exit_command s in
  fst r = Raise e
  /\ writes (trace (snd r))
     = (writes (trace s) ++ [normalize_cmd exit_command])%list
  /\ base_prompt (snd r) = base_prompt s
  /\ privileged (snd r) = true.
Proof.
  intros Hp Hr r. subst r.
  rewrite (exit_refresh_raises exit_command s e Hp Hr). cbn [fst snd].
  split; [reflexivity|]. split; [apply writes_exit_pass|].
  split; [reflexivity | exact Hp].
Qed.


End ElevationRuns.

(** ** The password prompt *)

Module ReFacts.
Import PyStr.

Lemma match_here_cons ic a l s :
  Re.match_here ic (a :: l) s
  = Re.back (Re.match_here ic l) (Re.grp a) s
      match Re.rep a with
      | Re.Once => Nat.min 1 (span (Re.accepts ic (Re.cls a)) s)
      | Re.Many => span (Re.accepts ic (Re.cls a)) s
      end.
Proof. reflexivity. Qed.

(** A successful [back] continued after some [j] characters, with
    [1 <= j <= k]. *)
Lemma back_some continue keep s k gs :
  Re.back continue keep s k = Some gs ->
  exists j gs',
    1 <= j <= k /\ continue (drop j s) = Some gs'
    /\ gs = if keep then take j s :: gs' else gs'.
Proof.
  induction k as [|k IH]; [discriminate|].
  cbn [Re.back].
  destruct (continue (drop (S k) s)) as [gs'|] eqn:Hc.
  - intros [= <-]. exists (S k), gs'. repeat split; [lia | lia | exact Hc].
  - intros H. destruct (IH H) as (j & gs' & Hj & Hc' & Hgs).
    exists j, gs'. repeat split; [lia | lia | exact Hc' | exact Hgs].
Qed.





End ReFacts.

Section PasswordPrompt.

Context {env : Environ} {parent : Parent}.


End PasswordPrompt.

(** ** What the checksum pattern accepts *)

Module Md5Facts.
Import PyStr.

Lemma take_drop (j : nat) (s : string) : take j s ++ drop j s = s.
Proof.
  revert s. induction j as [|j IH]; intros [|c r]; cbn; try reflexivity.
  now rewrite IH.
Qed.

Lemma all_take_span (p : ascii -> bool) (j : nat) (s : string) :
  j <= span p s -> all p (take j s) = true.
Proof.
  revert s. induction j as [|j IH]; intros [|c r] Hj; cbn in *;
    try reflexivity.
  destruct (p c); [|lia]. cbn. apply IH. lia.
Qed.

Lemma span_head (p : ascii -> bool) (s : string) :
  1 <= span p s -> exists c r, s = String c r /\ p c = true.
Proof.
  destruct s as [|c r]; cbn; [lia|].
  destruct (p c) eqn:Hc; [eauto | lia].
Qed.

Lemma take_nonempty (p : ascii -> bool) (j : nat) (s : string) :
  1 <= j -> j <= span p s -> take j s <> "".
Proof.
  intros H1 Hj. destruct (span_head p s ltac:(lia)) as (c & r & -> & _).
  destruct j; [lia | discriminate].
Qed.

Lemma all_app (p : ascii -> bool) (a b : string) :
  all p (a ++ b) = all p a && all p b.
Proof.
  induction a as [|c r IH]; cbn; [reflexivity|].
  rewrite IH. now destruct (p c).
Qed.

(** Whatever [^(\S+)\s+] matches: one group, a non-empty run without white
    space that starts the text and is followed by a white-space
    character. *)
Lemma md5_token_shape raw gs :
  Re.search Re.md5_pattern raw 0 = Some gs ->
  exists d c rest,
    gs = [d] /\ d <> "" /\ all nonspace d = true
    /\ isspace c = true /\ raw = d ++ String c rest.
Proof.
  unfold Re.search, Re.md5_pattern. cbn [Re.bol Re.atoms].
  change (Z.testbit 0 1) with false. cbv iota.
  rewrite ReFacts.match_here_cons. cbn [Re.grp Re.rep Re.cls].
  intros H. apply ReFacts.back_some in H as (j & gs1 & Hj & Hc & ->).
  rewrite ReFacts.match_here_cons in Hc. cbn [Re.grp Re.rep Re.cls] in Hc.
  apply ReFacts.back_some in Hc as (j' & gs2 & Hj' & Hnil & ->).
  cbn in Hnil. injection Hnil as <-.
  destruct (span_head (Re.accepts false Re.Space) (drop j raw)
              ltac:(lia)) as (c & rest & Hdrop & Hcspace).
  exists (take j raw), c, rest. split; [reflexivity|].
  split; [apply (take_nonempty (Re.accepts false Re.NonSpace)); lia|].
  split; [apply (all_take_span (Re.accepts false Re.NonSpace)); lia|].
  split; [exact Hcspace|].
  rewrite <- Hdrop. symmetry. apply take_drop.
Qed.

(** The same, read on [process_md5]. *)
Lemma process_md5_shape raw d :
  process_md5 raw Re.md5_pattern = Ok d ->
  d <> "" /\ all nonspace d = true
  /\ exists c rest, isspace c = true /\ raw = d ++ String c rest.
Proof.
  unfold process_md5, parent_process_md5.
  destruct (Re.search Re.md5_pattern raw 0) as [gs|] eqn:Hs;
    [|discriminate].
  destruct (md5_token_shape raw gs Hs)
    as (d' & c & rest & -> & Hne & Hall & Hc & Hraw).
  intros [= <-]. split; [exact Hne|]. split; [exact Hall|]. eauto.
Qed.

End Md5Facts.

(** X9.  With the default pattern, [process_md5] returns [d] exactly when
    the output starts with [d], [d] is non-empty and free of white space,
    and a white-space character follows it. *)
Theorem process_md5_accepts_exactly raw d :
  process_md5 raw Re.md5_pattern = Ok d
  <-> (d <> "" /\ PyStr.all PyStr.nonspace d = true
       /\ exists c rest,
            PyStr.isspace c = true /\ raw = d ++ String c rest).
Proof.
  split; [apply Md5Facts.process_md5_shape|].
  intros (Hne & Hall & c & rest & Hc & ->).
  unfold process_md5, parent_process_md5.
  change (d ++ String c rest) with (d ++ String c "" ++ rest).
  rewrite (md5_pattern_captures_digest d (String c "") rest Hne Hall).
  - reflexivity.
  - discriminate.
  - cbn. now rewrite Hc.
Qed.

(** X10.  With the default pattern, [process_md5] returns no token for
    empty output, for output that starts with white space (a leading
    blank or newline) and for output without any white space (a digest
    with nothing after it). *)
Theorem process_md5_rejects raw :
  (raw = ""
   \/ (exists c rest, raw = String c rest /\ PyStr.isspace c = true)
   \/ PyStr.all PyStr.nonspace raw = true) ->
  forall d, process_md5 raw Re.md5_pattern <> Ok d.
Proof.
  intros Hraw d Hd.
  destruct (Md5Facts.process_md5_shape raw d Hd)
    as (Hne & Hall & c & rest & Hc & Heq).
  destruct Hraw as [-> | [(c0 & rest0 & -> & Hc0) | Hns]].
  - destruct d; discriminate.
  - destruct d as [|x d']; [congruence|].
    cbn in Heq. injection Heq as -> _.
    cbn in Hall. unfold PyStr.nonspace in Hall at 1.
    rewrite Hc0 in Hall. discriminate.
  - rewrite Heq, Md5Facts.all_app in Hns.
    apply andb_true_iff in Hns as [_ Hns]. cbn in Hns.
    unfold PyStr.nonspace in Hns at 1. rewrite Hc in Hns. discriminate.
Qed.

(** ** Every run of [remote_md5] *)

Section ChecksumRuns.

Context {parent : Parent}.

Lemma remote_md5_run self base_cmd remote_file s :
  remote_md5 self base_cmd remote_file s
  = (match command_reply
             (trace s
              ++ [SendCommand (md5_command self base_cmd remote_file) 300])
     with
     | Ok raw =>
         match process_md5 raw Re.md5_pattern with
         | Ok token => Ok (PyStr.strip token)
         | Raise e => Raise e
         end
     | Raise e => Raise e
     end,
     with_trace s
       (trace s ++ [SendCommand (md5_command self base_cmd remote_file) 300])).
Proof.
  unfold md5_command, md5_remote_file. run.
  destruct (command_reply _) as [raw|e]; [|reflexivity].
  destruct (process_md5 raw Re.md5_pattern); reflexivity.
Qed.

(** X11.  A file named by the caller is the one asked about: the
    direction, the source file and the destination file play no part. *)
Theorem remote_md5_override_wins self self' base_cmd f s :
  file_system self' = file_system self ->
  remote_md5 self' base_cmd (Some f) s = remote_md5 self base_cmd (Some f) s
  /\ trace (snd (remote_md5 self base_cmd (Some f) s))
     = (trace s
        ++ [SendCommand
              (base_cmd ++ " " ++ PyStr.format_opt (file_system self) ++ "/"
               ++ f) 300])%list.
Proof.
  intros Hfs. rewrite !remote_md5_run.
  unfold md5_command, md5_remote_file. cbn [PyStr.format_opt snd trace
    with_trace]. rewrite Hfs. split; reflexivity.
Qed.


(** X13.  With [file_system=None] the command is built all the same, under
    a directory called [None]. *)
Theorem remote_md5_without_file_system self base_cmd f s :
  file_system self = None ->
  trace (snd (remote_md5 self base_cmd (Some f) s))
  = (trace s ++ [SendCommand (base_cmd ++ " None/" ++ f) 300])%list.
Proof.
  intros Hfs. rewrite remote_md5_run.
  unfold md5_command, md5_remote_file. rewrite Hfs. reflexivity.
Qed.

(** X14.  Every run of [remote_md5] sends one command with
    [read_timeout=300] and does nothing else on the channel; it leaves the
    cached prompt alone, and an exception of the command, a timeout
    included, leaves the call as it is. *)
Theorem remote_md5_single_command self base_cmd remote_file s :
  let r := remote_md5 self base_cmd remote_file s in
  exists cmd,
    trace (snd r) = (trace s ++ [SendCommand cmd 300])%list
    /\ writes (trace (snd r)) = writes (trace s)
    /\ base_prompt (snd r) = base_prompt s
    /\ (forall e, command_reply (trace (snd r)) = Raise e -> fst r = Raise e).
Proof.
  intros r. subst r. rewrite remote_md5_run. cbn [fst snd trace with_trace
    base_prompt].
  exists (md5_command self base_cmd remote_file).
  split; [reflexivity|]. split.
  - rewrite writes_app. cbn [writes]. apply app_nil_r.
  - split; [reflexivity|]. intros e He. now rewrite He.
Qed.

(** X15.  What [remote_md5] returns is never padded: it is a non-empty
    string without white space, and the reply of the command starts with
    it, followed by a white-space character. *)
Theorem remote_md5_returns_leading_token
    self base_cmd remote_file s d s' :
  remote_md5 self base_cmd remote_file s = (Ok d, s') ->
  d <> "" /\ PyStr.all PyStr.nonspace d = true
  /\ exists c rest,
       PyStr.isspace c = true
       /\ command_reply (trace s') = Ok (d ++ String c rest).
Proof.
  rewrite remote_md5_run.
  destruct (command_reply _) as [raw|e] eqn:Hreply; [|discriminate].
  destruct (process_md5 raw Re.md5_pattern) as [token|e] eqn:Hparse;
    [|discriminate].
  destruct (Md5Facts.process_md5_shape raw token Hparse)
    as (Hne & Hall & c & rest & Hc & Hraw).
  rewrite (PyStrFacts.strip_nonspace token Hall).
  intros [= <- <-]. split; [exact Hne|]. split; [exact Hall|].
  exists c, rest. split; [exact Hc|].
  cbn [trace with_trace]. now rewrite Hreply, Hraw.
Qed.

End ChecksumRuns.

(** ** More concrete runs *)

(** [sudo -s] on a shell that hands out root. *)
Lemma enable_success_returns_output_witness :
  @privileged default_environ Script.user_session = false
  /\ fst (@enable default_environ Script.gives_root "sudo -s"
            (Re.literal "ssword") None Re.IGNORECASE Script.user_session)
     = Ok "[sudo] password for admin: "
  /\ @privileged default_environ
       (snd (@enable default_environ Script.gives_root "sudo -s"
               (Re.literal "ssword") None Re.IGNORECASE
               Script.user_session)) = true.
Proof.
  split; [reflexivity|].
  destruct (@enable_success_returns_output default_environ
              Script.gives_root "sudo -s" (Re.literal "ssword") None
              Re.IGNORECASE Script.user_session
              "[sudo] password for admin: " " root@host:~# "
              eq_refl eq_refl eq_refl eq_refl) as (Hout & Hpriv & _).
  split; [exact Hout | exact Hpriv].
Defined.


(** The password prompt arrives and then the channel goes silent. *)
Lemma enable_translates_socket_timeout_witness :
  @privileged default_environ Script.user_session = false
  /\ fst (@enable default_environ Shell.stalls_after_password "sudo -s"
            (Re.literal "ssword") None Re.IGNORECASE Script.user_session)
     = Raise (NetmikoTimeoutException
                "Timed-out reading channel, data not available.").
Proof.
  split; [reflexivity|].
  exact (proj1 (@enable_translates_socket_timeout default_environ
                  Shell.stalls_after_password "sudo -s"
                  (Re.literal "ssword") None Re.IGNORECASE
                  Script.user_session eq_refl
                  (or_intror (ex_intro _ "[sudo] password for admin: "
                                (conj eq_refl eq_refl))))).
Defined.

(** The channel is closed while [enable] reads. *)
Lemma enable_passes_other_errors_witness :
  is_socket_timeout (OtherError "EOFError") = false
  /\ fst (@enable default_environ Shell.closed "sudo -s"
            (Re.literal "ssword") None Re.IGNORECASE Script.user_session)
     = Raise (OtherError "EOFError").
Proof.
  split; [reflexivity|].
  exact (@enable_passes_other_errors default_environ Shell.closed "sudo -s"
           (Re.literal "ssword") None Re.IGNORECASE Script.user_session
           (OtherError "EOFError") eq_refl eq_refl (or_introl eq_refl)).
Defined.

(** The channel is closed after [exit] has been written. *)
Lemma exit_enable_mode_refresh_error_witness :
  @privileged default_environ Script.root_session = true
  /\ fst (@exit_enable_mode default_environ Shell.closed "exit"
            Script.root_session)
     = Raise (OtherError "EOFError")
  /\ writes (trace (snd (@exit_enable_mode default_environ Shell.closed
                           "exit" Script.root_session)))
     = ["exit" ++ Script.newline]
  /\ @privileged default_environ
       (snd (@exit_enable_mode default_environ Shell.closed "exit"
               Script.root_session)) = true.
Proof.
  split; [reflexivity|].
  destruct (@exit_enable_mode_refresh_error default_environ Shell.closed
              "exit" Script.root_session (OtherError "EOFError")
              eq_refl eq_refl) as (Hraise & Hwrites & _ & Hpriv).
  split; [exact Hraise|]. split; [exact Hwrites | exact Hpriv].
Defined.


(** Output that starts with a newline is not parsed. *)
Lemma process_md5_rejects_witness :
  process_md5 (Script.newline ++ "d41d8cd98f00b204e9800998ecf8427e  a.txt")
    Re.md5_pattern
  <> Ok "d41d8cd98f00b204e9800998ecf8427e".
Proof.
  exact (process_md5_rejects
           (Script.newline ++ "d41d8cd98f00b204e9800998ecf8427e  a.txt")
           (or_intror (or_introl
              (ex_intro _ (ascii_of_nat 10)
                 (ex_intro _ "d41d8cd98f00b204e9800998ecf8427e  a.txt"
                    (conj eq_refl eq_refl)))))
           "d41d8cd98f00b204e9800998ecf8427e").
Defined.

(** A named file on a put job and on a get job. *)
Lemma remote_md5_override_wins_witness :
  file_system Script.get_job = file_system Script.put_job
  /\ @remote_md5 Script.md5_host Script.get_job "md5sum" (Some "c.txt")
       Script.user_session
     = @remote_md5 Script.md5_host Script.put_job "md5sum" (Some "c.txt")
         Script.user_session
  /\ trace (snd (@remote_md5 Script.md5_host Script.put_job "md5sum"
                   (Some "c.txt") Script.user_session))
     = [SendCommand "md5sum /var/tmp/c.txt" 300].
Proof.
  split; [reflexivity|].
  exact (@remote_md5_override_wins Script.md5_host Script.put_job
           Script.get_job "md5sum" "c.txt" Script.user_session eq_refl).
Defined.


(** A transfer built with [file_system=None]. *)
Lemma remote_md5_without_file_system_witness :
  file_system Shell.rootless_job = None
  /\ trace (snd (@remote_md5 Script.md5_host Shell.rootless_job "md5sum"
                   (Some "a.txt") Script.user_session))
     = [SendCommand "md5sum None/a.txt" 300].
Proof.
  split; [reflexivity|].
  exact (@remote_md5_without_file_system Script.md5_host Shell.rootless_job
           "md5sum" "a.txt" Script.user_session eq_refl).
Defined.

(** The digest of [/var/tmp/a.txt]. *)
Lemma remote_md5_returns_leading_token_witness :
  @remote_md5 Script.md5_host Script.put_job "md5sum" None
    Script.user_session
  = (Ok "d41d8cd98f00b204e9800998ecf8427e",
     with_trace Script.user_session
       [SendCommand "md5sum /var/tmp/a.txt" 300])
  /\ PyStr.all PyStr.nonspace "d41d8cd98f00b204e9800998ecf8427e" = true.
Proof.
  split; [reflexivity|].
  exact (proj1 (proj2 (@remote_md5_returns_leading_token Script.md5_host
                         Script.put_job "md5sum" None Script.user_session
                         "d41d8cd98f00b204e9800998ecf8427e"
                         (with_trace Script.user_session
                            [SendCommand "md5sum /var/tmp/a.txt" 300])
                         eq_refl))).
Defined.
